(** * phaseflow.octadecane: the weak form of the octadecane phase-change model

    A shallow embedding of [src/phaseflow/octadecane.py].  The class
    [Simulation] stores twelve parameters and builds two things for the
    finite-element library: a mixed element ([update_element]) and the
    integrand of the governing variational form ([update_governing_form]).

    The form is a symbolic UFL expression.  Its meaning is the real number it
    denotes at a point of the domain, so UFL scalars are embedded as [R], UFL
    vectors and tensors as index functions, and a finite-element function as
    the values and gradients of its components at each point.  Element degrees
    are Python integers, embedded as [Z]. *)

From Stdlib Require Import Reals Lra Lia ZArith List String Bool.
Import ListNotations.

Local Open Scope R_scope.

(** ** Values of UFL expressions at a point *)

Definition Vector := nat -> R.
Definition Tensor := nat -> nat -> R.

(** A scalar member of a function space, seen at one point: its value and the
    value of its gradient there. *)
Record ScalarFunction := mkScalar {
  sval : R;
  sgrad : Vector
}.

(** A vector-valued member of a function space at one point; [vgrad u i j] is
    the derivative of component [i] in direction [j], as in UFL. *)
Record VectorFunction := mkVector {
  vval : Vector;
  vgrad : Tensor
}.

Coercion sval : ScalarFunction >-> R.

(** [sum_below n f] is f 0 + ... + f (n-1). *)
Fixpoint sum_below (n : nat) (f : nat -> R) : R :=
  match n with
  | O => 0
  | S k => sum_below k f + f k
  end.

Definition vadd (a b : Vector) : Vector := fun i => a i + b i.
Definition vsub (a b : Vector) : Vector := fun i => a i - b i.
Definition vscale (s : R) (a : Vector) : Vector := fun i => s * a i.
Definition vzero : Vector := fun _ => 0.
Definition tzero : Tensor := fun _ _ => 0.

Declare Scope ufl_scope.
Delimit Scope ufl_scope with ufl.
Infix "+" := vadd : ufl_scope.
Infix "-" := vsub : ufl_scope.
Infix "*:" := vscale (at level 40, left associativity).

(** [fenics.Constant] applied to a Python float, and to a Python list of
    floats (a constant vector whose components are the entries of the list). *)
Definition Constant (x : R) : R := x.
Definition ConstantVector (l : list R) : Vector := fun i => nth i l 0.

(** [grad] applies to scalar and to vector functions alike. *)
Class Grad (F G : Type) := grad : F -> G.

#[global] Instance grad_scalar : Grad ScalarFunction Vector := sgrad.
#[global] Instance grad_vector : Grad VectorFunction Tensor := vgrad.

Coercion vval : VectorFunction >-> Vector.

(** A member of the mixed space at one point, and [fenics.split]. *)
Record MixedFunction := mkMixed {
  pressure : ScalarFunction;
  velocity : VectorFunction;
  temperature : ScalarFunction
}.

Definition split (w : MixedFunction) :
  ScalarFunction * VectorFunction * ScalarFunction :=
  (pressure w, velocity w, temperature w).

(** ** The closures of [update_governing_form]

    The local functions of [update_governing_form] capture the constants built
    from the attributes of [self]; here the captured constants are the
    variables of the section. *)
Section GoverningForm.

(** Geometric dimension of the mesh: the number of components of a vector and
    the range of every index sum. *)
Variable d : nat.

(** UFL's [dot] on two vectors, and on a tensor and a vector. *)
Definition dot (a b : Vector) : R :=
  sum_below d (fun i => a i * b i).

Definition dot_tv (A : Tensor) (b : Vector) : Vector :=
  fun i => sum_below d (fun j => A i j * b j).

Definition inner (A B : Tensor) : R :=
  sum_below d (fun i => sum_below d (fun j => A i j * B i j)).

Definition div (u : VectorFunction) : R :=
  sum_below d (fun i => grad u i i).

Definition sym (A : Tensor) : Tensor :=
  fun i j => 0.5 * (A i j + A j i).

Variables Delta_t Pr Ra Ste : R.
Variable g : Vector.

Definition Re : R := Constant 1.

Definition f_B (T : R) : Vector :=
  (T * Ra / (Pr * Re ^ 2)) *: g.

Variables T_r r : R.

(** Semi-phase-field mapping from temperature. *)
Definition phi (T : R) : R :=
  0.5 * (1 + tanh ((T_r - T) / r)).

Variables mu_L mu_S : R.

Definition mu (phi_of_T : R) : R :=
  mu_L + (mu_S - mu_L) * phi_of_T.

Variable gamma : R.

(** Divergence *)
Definition b (u : VectorFunction) (p : R) : R :=
  (- div u) * p.

(** Symmetric part of velocity gradient *)
Definition D (u : VectorFunction) : Tensor :=
  sym (grad u).

(** Stokes stress-strain *)
Definition a (mu : R) (u v : VectorFunction) : R :=
  2 * mu * inner (D u) (D v).

(** Convection of the velocity field *)
Definition c (u z v : VectorFunction) : R :=
  dot (dot_tv (grad z) u) v.

(** The expression multiplied by [dx] in [self.governing_form], at one
    point.  [w] and [w_n] are the solutions [self.state.solution] and
    [self.old_state.solution]; [psi] is the test function, whose components
    [fenics.TestFunctions(W)] names [psi_p], [psi_u], [psi_T]. *)
Definition governing_integrand (w w_n psi : MixedFunction) : R :=
  let '(p, u, T) := split w in
  let '(p_n, u_n, T_n) := split w_n in
  let '(psi_p, psi_u, psi_T) := split psi in
  b u psi_p - psi_p * gamma * p
  + dot psi_u (1 / Delta_t *: (u - u_n) + f_B T)%ufl
  + c u u psi_u + b psi_u p + a (mu (phi T)) u psi_u
  + 1 / Delta_t * psi_T * (T - T_n - 1 / Ste * (phi T - phi T_n))
  + dot (grad psi_T) (1 / Pr *: grad T - T *: u)%ufl.

End GoverningForm.

(** ** Objects of the finite-element library

    Only what [octadecane.py] passes to and reads from the library is
    represented.  The element constructors are plain data: the library's own
    checks on families and degrees are outside this file. *)

Record Cell := mkCell {
  cellname : string;
  geometric_dimension : nat
}.

Record Mesh := mkMesh {
  ufl_cell : Cell
}.

#[warnings="-register-all"] Inductive Element :=
| FiniteElement (family : string) (cell : Cell) (degree : Z)
| VectorElement (family : string) (cell : Cell) (degree : Z)
| MixedElement (sub_elements : list Element).

(** Polynomial degree of a scalar or vector element. *)
Definition degree (e : Element) : option Z :=
  match e with
  | FiniteElement _ _ k => Some k
  | VectorElement _ _ k => Some k
  | MixedElement _ => None
  end.

Definition sub_elements (e : Element) : list Element :=
  match e with
  | MixedElement l => l
  | _ => []
  end.

Record FunctionSpace := mkFunctionSpace {
  fs_mesh : Mesh;
  ufl_element : Element
}.

Definition Point := Vector.

(** A finite-element function on the mixed space: its space and, at each
    point, the values and gradients of its three components. *)
Record Function := mkFunction {
  function_space : FunctionSpace;
  at_point : Point -> MixedFunction
}.

Record Measure := mkMeasure {
  integral_type : string
}.

(** A form [integrand * dx]; the integrand depends on the test function. *)
Record Form := mkForm {
  integrand : (Point -> MixedFunction) -> Point -> R;
  measure : Measure
}.

Record State := mkState {
  solution : Function
}.

(** Modelled from the spec: the base class [phaseflow.simulation.Simulation]
    is not among the sources.  The spec describes it as the collaborator that
    supplies [mesh], [integration_metric], [state.solution] and
    [old_state.solution]; these four attributes are all that is represented of
    it. *)
Record Base := mkBase {
  mesh : Mesh;
  integration_metric : Measure;
  state : State;
  old_state : State
}.

(** ** The class [Simulation] *)

Record Simulation := mkSimulation {
  timestep_size : R;
  rayleigh_numer : R;
  prandtl_number : R;
  stefan_number : R;
  gravity : list R;
  liquid_viscosity : R;
  solid_viscosity : R;
  penalty_parameter : R;
  regularization_central_temperature : R;
  regularization_smoothing_parameter : R;
  pressure_element_degree : Z;
  temperature_element_degree : Z;
  semi_phasefield_mapping : option (R -> R);
  element : option Element;
  governing_form : option Form;
  base : Base
}.

(** Attribute assignments [self.x = v]. *)
Definition set_semi_phasefield_mapping (self : Simulation) (v : option (R -> R))
  : Simulation :=
  mkSimulation (timestep_size self) (rayleigh_numer self) (prandtl_number self)
    (stefan_number self) (gravity self) (liquid_viscosity self)
    (solid_viscosity self) (penalty_parameter self)
    (regularization_central_temperature self)
    (regularization_smoothing_parameter self) (pressure_element_degree self)
    (temperature_element_degree self)
    v (element self) (governing_form self) (base self).

Definition set_element (self : Simulation) (v : option Element) : Simulation :=
  mkSimulation (timestep_size self) (rayleigh_numer self) (prandtl_number self)
    (stefan_number self) (gravity self) (liquid_viscosity self)
    (solid_viscosity self) (penalty_parameter self)
    (regularization_central_temperature self)
    (regularization_smoothing_parameter self) (pressure_element_degree self)
    (temperature_element_degree self)
    (semi_phasefield_mapping self) v (governing_form self) (base self).

Definition set_governing_form (self : Simulation) (v : option Form) : Simulation :=
  mkSimulation (timestep_size self) (rayleigh_numer self) (prandtl_number self)
    (stefan_number self) (gravity self) (liquid_viscosity self)
    (solid_viscosity self) (penalty_parameter self)
    (regularization_central_temperature self)
    (regularization_smoothing_parameter self) (pressure_element_degree self)
    (temperature_element_degree self)
    (semi_phasefield_mapping self) (element self) v (base self).

Definition set_base (self : Simulation) (v : Base) : Simulation :=
  mkSimulation (timestep_size self) (rayleigh_numer self) (prandtl_number self)
    (stefan_number self) (gravity self) (liquid_viscosity self)
    (solid_viscosity self) (penalty_parameter self)
    (regularization_central_temperature self)
    (regularization_smoothing_parameter self) (pressure_element_degree self)
    (temperature_element_degree self)
    (semi_phasefield_mapping self) (element self) (governing_form self) v.

(** Modelled from the spec: [phaseflow.simulation.Simulation.__init__], which
    is not among the sources.  It installs the attributes the base class
    supplies, here handed in as [env], and leaves the others alone. *)
Definition Base__init__ (self : Simulation) (env : Base) : Simulation :=
  set_base self env.

(** [Simulation.__init__]: each argument is stored in the attribute of the
    same name, [semi_phasefield_mapping] is set to [None], then the base class
    is initialised.  [element] and [governing_form] do not exist yet.  A
    record has no absent field, so the attributes of the base class hold the
    values of [env] from the start. *)
Definition __init__
    (timestep_size rayleigh_numer prandtl_number stefan_number : R)
    (gravity : list R)
    (liquid_viscosity solid_viscosity penalty_parameter : R)
    (regularization_central_temperature regularization_smoothing_parameter : R)
    (pressure_element_degree temperature_element_degree : Z)
    (env : Base) : Simulation :=
  let self :=
    mkSimulation timestep_size rayleigh_numer prandtl_number stefan_number
      gravity liquid_viscosity solid_viscosity penalty_parameter
      regularization_central_temperature regularization_smoothing_parameter
      pressure_element_degree temperature_element_degree
      None None None env in
  Base__init__ self env.

(** The constructor called with no argument: every default of the signature. *)
Definition default_Simulation (env : Base) : Simulation :=
  __init__ 1 1 1 1 [0; -1] 1 1e8 1e-7 0 0.01 1 1 env.

Definition update_element (self : Simulation) : Simulation :=
  let pressure_element :=
    FiniteElement "P" (ufl_cell (mesh (base self))) (pressure_element_degree self) in
  let velocity_element_degree := (pressure_element_degree self + 1)%Z in
  let velocity_element :=
    VectorElement "P" (ufl_cell (mesh (base self))) velocity_element_degree in
  let temperature_element :=
    FiniteElement "P" (ufl_cell (mesh (base self))) (temperature_element_degree self) in
  set_element self
    (Some (MixedElement [pressure_element; velocity_element; temperature_element])).

Definition update_governing_form (self : Simulation) : Simulation :=
  let Delta_t := Constant (timestep_size self) in
  let Pr := Constant (prandtl_number self) in
  let Ra := Constant (rayleigh_numer self) in
  let Ste := Constant (stefan_number self) in
  let g := ConstantVector (gravity self) in
  let T_r := Constant (regularization_central_temperature self) in
  let r := Constant (regularization_smoothing_parameter self) in
  let self := set_semi_phasefield_mapping self (Some (phi T_r r)) in
  let mu_L := Constant (liquid_viscosity self) in
  let mu_S := Constant (solid_viscosity self) in
  let gamma := Constant (penalty_parameter self) in
  let dx := integration_metric (base self) in
  let w := solution (state (base self)) in
  let w_n := solution (old_state (base self)) in
  let W := function_space w in
  let gdim := geometric_dimension (ufl_cell (fs_mesh W)) in
  set_governing_form self
    (Some (mkForm
       (fun psi x =>
          governing_integrand gdim Delta_t Pr Ra Ste g T_r r mu_L mu_S gamma
            (at_point w x) (at_point w_n x) (psi x))
       dx)).

(** ** Calls on the object

    The methods the base class invokes, in any order and any number of times.
    Modelled from the spec: between two calls the external driver, which owns
    the solution state, may rebind the attributes of the base class
    ([drive]). *)
Inductive Call :=
| call_update_element
| call_update_governing_form
| drive (env : Base).

Definition invoke (self : Simulation) (m : Call) : Simulation :=
  match m with
  | call_update_element => update_element self
  | call_update_governing_form => update_governing_form self
  | drive env => set_base self env
  end.

Definition run (calls : list Call) (self : Simulation) : Simulation :=
  fold_left invoke calls self.

Definition is_update_governing_form (m : Call) : bool :=
  match m with
  | call_update_governing_form => true
  | _ => false
  end.

(** The twelve parameter attributes of an object, in the order of the
    constructor's signature. *)
Definition parameters (self : Simulation) :=
  (timestep_size self, rayleigh_numer self, prandtl_number self,
   stefan_number self, gravity self, liquid_viscosity self,
   solid_viscosity self, penalty_parameter self,
   regularization_central_temperature self,
   regularization_smoothing_parameter self,
   pressure_element_degree self, temperature_element_degree self).

(** Sub-elements of [self.element] by position in the list handed to
    [MixedElement]: pressure, velocity, temperature. *)
Definition sub_element (k : nat) (self : Simulation) : option Element :=
  match element self with
  | Some e => nth_error (sub_elements e) k
  | None => None
  end.

Definition sub_element_degree (k : nat) (self : Simulation) : option Z :=
  match sub_element k self with
  | Some e => degree e
  | None => None
  end.

Definition pressure_sub_element_degree := sub_element_degree 0.
Definition velocity_sub_element_degree := sub_element_degree 1.
Definition temperature_sub_element_degree := sub_element_degree 2.

(** The temperature sub-element built by [update_element] has the degree of
    the pressure sub-element. *)
Definition temperature_at_pressure_degree (self : Simulation) : Prop :=
  temperature_sub_element_degree (update_element self)
  = pressure_sub_element_degree (update_element self).

(** Geometric dimension seen by [update_governing_form]: that of the cell of
    the mesh of [w.function_space()]. *)
Definition form_dimension (self : Simulation) : nat :=
  geometric_dimension
    (ufl_cell (fs_mesh (function_space (solution (state (base self)))))).

(** ** Test functions with a single block

    The form is linear in the test function [(psi_p, psi_u, psi_T)].  Its
    energy equation is what it gives on test functions whose pressure and
    velocity components vanish; its mass and momentum equations are what it
    gives on test functions whose temperature component vanishes. *)
Definition zero_scalar : ScalarFunction := mkScalar 0 vzero.
Definition zero_vector : VectorFunction := mkVector vzero tzero.

Definition energy_test (psi : MixedFunction) : MixedFunction :=
  mkMixed zero_scalar zero_vector (temperature psi).

Definition mass_momentum_test (psi : MixedFunction) : MixedFunction :=
  mkMixed (pressure psi) (velocity psi) zero_scalar.

(** Limits of a real function at the two infinities. *)
Definition tends_to_at_minus_infinity (f : R -> R) (l : R) : Prop :=
  forall eps, 0 < eps -> exists M, forall T, T < M -> Rabs (f T - l) < eps.

Definition tends_to_at_plus_infinity (f : R -> R) (l : R) : Prop :=
  forall eps, 0 < eps -> exists M, forall T, M < T -> Rabs (f T - l) < eps.

(** A sample environment: a triangle mesh and solutions that vanish. *)
Definition sample_mesh : Mesh := mkMesh (mkCell "triangle" 2).

Definition sample_function : Function :=
  mkFunction
    (mkFunctionSpace sample_mesh
       (MixedElement [FiniteElement "P" (ufl_cell sample_mesh) 1;
                      VectorElement "P" (ufl_cell sample_mesh) 2;
                      FiniteElement "P" (ufl_cell sample_mesh) 1]))
    (fun _ => mkMixed zero_scalar zero_vector zero_scalar).

Definition sample_base : Base :=
  mkBase sample_mesh (mkMeasure "dx") (mkState sample_function)
    (mkState sample_function).

(** ** The weak form as the specification states it

    Written from the specification's formulas, to be compared with the
    closures above. *)
Module Spec.

Definition phi (T_r r T : R) : R := 0.5 * (1 + tanh ((T_r - T) / r)).

Definition mu (mu_L mu_S phi : R) : R := mu_L + (mu_S - mu_L) * phi.

Definition f_B (Ra Pr Re : R) (g : Vector) (T : R) : Vector :=
  fun i => T * Ra / (Pr * Re ^ 2) * g i.

Definition b (d : nat) (v : VectorFunction) (q : R) : R := - div d v * q.

Definition a (d : nat) (mu : R) (u v : VectorFunction) : R :=
  2 * mu * inner d (sym (grad u)) (sym (grad v)).

(** Implicit Euler energy balance with latent heat, and transport. *)
Definition energy_form (d : nat) (Delta_t Pr Ste T_r r : R)
    (u : VectorFunction) (T T_n psi_T : ScalarFunction) : R :=
  (1 / Delta_t) * psi_T
    * (T - T_n - (1 / Ste) * (phi T_r r T - phi T_r r T_n))
  + dot d (grad psi_T) ((1 / Pr) *: grad T - T *: u)%ufl.

(** Steady-state Stokes weak form with penalty and buoyancy. *)
Definition stokes_form (d : nat) (Pr Ra Re : R) (g : Vector)
    (T_r r mu_L mu_S gamma : R)
    (p : ScalarFunction) (u : VectorFunction) (T : ScalarFunction)
    (psi_p : ScalarFunction) (psi_u : VectorFunction) : R :=
  b d u psi_p - gamma * psi_p * p + b d psi_u p
  + a d (mu mu_L mu_S (phi T_r r T)) u psi_u
  + dot d psi_u (f_B Ra Pr Re g T).

(** The terms of the form scaled by [1 / Delta_t]. *)
Definition time_derivative_terms (d : nat) (Delta_t Ste T_r r : R)
    (w w_n psi : MixedFunction) : R :=
  (1 / Delta_t) * dot d (velocity psi) (velocity w - velocity w_n)%ufl
  + (1 / Delta_t) * temperature psi
    * (temperature w - temperature w_n
       - (1 / Ste) * (phi T_r r (temperature w) - phi T_r r (temperature w_n))).

End Spec.

(** ** Linear structure of the test space

    Sums and multiples of members of the function spaces, taken on values and
    on gradients together. *)
Definition tadd (A B : Tensor) : Tensor := fun i j => A i j + B i j.
Definition tscale (k : R) (A : Tensor) : Tensor := fun i j => k * A i j.

Definition scalar_add (f h : ScalarFunction) : ScalarFunction :=
  mkScalar (f + h) (grad f + grad h)%ufl.

Definition scalar_scale (k : R) (f : ScalarFunction) : ScalarFunction :=
  mkScalar (k * f) (k *: grad f).

Definition vector_add (u v : VectorFunction) : VectorFunction :=
  mkVector (u + v)%ufl (tadd (grad u) (grad v)).

Definition vector_scale (k : R) (u : VectorFunction) : VectorFunction :=
  mkVector (k *: u) (tscale k (grad u)).

Definition mixed_add (v1 v2 : MixedFunction) : MixedFunction :=
  mkMixed (scalar_add (pressure v1) (pressure v2))
          (vector_add (velocity v1) (velocity v2))
          (scalar_add (temperature v1) (temperature v2)).

Definition mixed_scale (k : R) (v : MixedFunction) : MixedFunction :=
  mkMixed (scalar_scale k (pressure v)) (vector_scale k (velocity v))
          (scalar_scale k (temperature v)).

(** Test functions with only a pressure block. *)
Definition mass_test (psi : MixedFunction) : MixedFunction :=
  mkMixed (pressure psi) zero_vector zero_scalar.

(** ** Observations of an object *)



(** The enthalpy-like quantity whose backward difference the energy equation
    takes: [T - (1/Ste) phi T]. *)
Definition enthalpy (Ste T_r r T : R) : R := T - 1 / Ste * phi T_r r T.

(** * Properties *)

(** ** Sums, products and the zero test function *)

Lemma sum_below_ext n f h :
  (forall i, f i = h i) -> sum_below n f = sum_below n h.
Proof.
  intros E. induction n as [|n IH]; simpl; [reflexivity|].
  now rewrite IH, E.
Qed.

Lemma sum_below_zero n f :
  (forall i, f i = 0) -> sum_below n f = 0.
Proof.
  intros E. induction n as [|n IH]; simpl; [reflexivity|].
  rewrite IH, E. lra.
Qed.

Lemma sum_below_plus n f h :
  sum_below n (fun i => f i + h i) = sum_below n f + sum_below n h.
Proof.
  induction n as [|n IH]; simpl; [lra|]. rewrite IH. lra.
Qed.

Lemma sum_below_scale n k f :
  sum_below n (fun i => k * f i) = k * sum_below n f.
Proof.
  induction n as [|n IH]; simpl; [lra|]. rewrite IH. lra.
Qed.

Lemma dot_zero_l d y : dot d vzero y = 0.
Proof.
  apply sum_below_zero. intros i. unfold vzero. lra.
Qed.

Lemma dot_zero_r d x : dot d x vzero = 0.
Proof.
  apply sum_below_zero. intros i. unfold vzero. lra.
Qed.

Lemma dot_vadd_r d x y z : dot d x (y + z)%ufl = dot d x y + dot d x z.
Proof.
  unfold dot, vadd. rewrite <- sum_below_plus.
  apply sum_below_ext. intros i. lra.
Qed.

Lemma dot_vscale_r d k x y : dot d x (k *: y) = k * dot d x y.
Proof.
  unfold dot, vscale. rewrite <- sum_below_scale.
  apply sum_below_ext. intros i. lra.
Qed.

Lemma div_zero d : div d zero_vector = 0.
Proof.
  apply sum_below_zero. reflexivity.
Qed.

Lemma inner_sym_zero d A : inner d A (sym (grad zero_vector)) = 0.
Proof.
  apply sum_below_zero. intros i. apply sum_below_zero. intros j.
  unfold sym. cbn. unfold tzero. lra.
Qed.

Lemma b_zero_test d u : b d u zero_scalar = 0.
Proof. unfold b. cbn. lra. Qed.

Lemma b_zero_field d p : b d zero_vector p = 0.
Proof. unfold b. rewrite div_zero. lra. Qed.

Lemma a_zero_test d m u : a d m u zero_vector = 0.
Proof. unfold a, D. rewrite inner_sym_zero. lra. Qed.

Lemma c_zero_test d u z : c d u z zero_vector = 0.
Proof. unfold c. apply dot_zero_r. Qed.

(** With the default parameters and solutions that vanish, every term of the
    integrand vanishes, whatever the test function. *)
Example integrand_of_zero_state (psi : MixedFunction) :
  governing_integrand 2 1 1 1 1 (ConstantVector [0; -1]) 0 0.01 1 1e8 1e-7
    (mkMixed zero_scalar zero_vector zero_scalar)
    (mkMixed zero_scalar zero_vector zero_scalar) psi = 0.
Proof.
  unfold governing_integrand. cbn [split pressure velocity temperature].
  rewrite b_zero_field.
  assert (Hinner : forall v : VectorFunction, v = zero_vector -> forall A,
            inner 2 (D v) A = 0).
  { intros v -> A. unfold inner, D, sym. cbn. unfold tzero. lra. }
  unfold a. rewrite (Hinner zero_vector eq_refl).
  unfold b, c, dot, dot_tv, div, f_B, vadd, vsub, vscale, Re, Constant.
  cbn. unfold vzero, tzero. lra.
Qed.

(** ** The energy equation *)

(** C1. For every object and so for every parameter configuration and pair of
    solutions [w], [w_n]: [update_governing_form] stores a form; on test
    functions whose pressure and velocity blocks vanish its integrand is the
    implicit Euler energy balance
    [(1/Delta_t) psi_T (T - T_n - (1/Ste) (phi T - phi T_n))
     + grad psi_T . ((1/Pr) grad T - T u)], and the integrand is the sum of
    this energy part and of its mass and momentum part. *)
Theorem energy_part_is_implicit_euler (self : Simulation) :
  exists F,
    governing_form (update_governing_form self) = Some F /\
    forall (psi : Point -> MixedFunction) (x : Point),
      let w := at_point (solution (state (base self))) x in
      let w_n := at_point (solution (old_state (base self))) x in
      integrand F (fun y => energy_test (psi y)) x
      = Spec.energy_form (form_dimension self)
          (timestep_size self) (prandtl_number self) (stefan_number self)
          (regularization_central_temperature self)
          (regularization_smoothing_parameter self)
          (velocity w) (temperature w) (temperature w_n) (temperature (psi x))
      /\ integrand F psi x
         = integrand F (fun y => mass_momentum_test (psi y)) x
           + integrand F (fun y => energy_test (psi y)) x.
Proof.
  eexists. split; [reflexivity|].
  intros psi x w w_n. cbn [integrand]. fold w w_n.
  unfold governing_integrand, energy_test, mass_momentum_test.
  cbn [split pressure velocity temperature set_semi_phasefield_mapping base
       liquid_viscosity solid_viscosity penalty_parameter].
  fold (form_dimension self).
  rewrite !b_zero_test, !b_zero_field, !a_zero_test, !c_zero_test.
  cbn [vval sval zero_vector zero_scalar].
  rewrite !dot_zero_l.
  change (@grad _ _ grad_scalar zero_scalar) with vzero.
  rewrite ?dot_zero_l.
  subst w w_n. unfold Spec.energy_form, Spec.phi, phi, Constant.
  split; lra.
Qed.

(** ** The phase indicator *)

Lemma tanh_exp x :
  tanh x = (exp x - exp (- x)) / (exp x + exp (- x)).
Proof.
  unfold tanh, sinh, cosh.
  pose proof (exp_pos x). pose proof (exp_pos (- x)).
  field. lra.
Qed.

Lemma tanh_0 : tanh 0 = 0.
Proof.
  rewrite tanh_exp, Ropp_0, exp_0. lra.
Qed.

Lemma tanh_opp x : tanh (- x) = - tanh x.
Proof.
  rewrite !tanh_exp, Ropp_involutive.
  pose proof (exp_pos x). pose proof (exp_pos (- x)).
  field. lra.
Qed.

(** Beyond [x > 0] the hyperbolic tangent is within [1/x] of 1. *)
Lemma tanh_near_one x :
  0 < x -> 0 < 1 - tanh x < / x.
Proof.
  intros Hx.
  pose proof (exp_pos x) as HA. pose proof (exp_pos (- x)) as HB.
  assert (HAB : exp x * exp (- x) = 1).
  { rewrite <- exp_plus, Rplus_opp_r. apply exp_0. }
  assert (Hge : 1 + x < exp x) by (apply exp_ineq1; lra).
  assert (E : 1 - tanh x = 2 * exp (- x) / (exp x + exp (- x))).
  { rewrite tanh_exp. field. lra. }
  rewrite E. split.
  - apply Rdiv_lt_0_compat; lra.
  - apply (Rmult_lt_reg_r (exp x + exp (- x))); [lra|].
    unfold Rdiv. rewrite Rmult_assoc, Rinv_l by lra.
    apply (Rmult_lt_reg_r x); [lra|].
    replace (/ x * (exp x + exp (- x)) * x) with (exp x + exp (- x))
      by (field; lra).
    apply (Rmult_lt_reg_r (exp x)); [lra|].
    replace (2 * exp (- x) * 1 * x * exp x) with (2 * x * (exp x * exp (- x)))
      by ring.
    replace ((exp x + exp (- x)) * exp x)
      with (exp x * exp x + exp x * exp (- x)) by ring.
    rewrite HAB. nra.
Qed.

Lemma phi_at_center T_r r : phi T_r r T_r = 0.5.
Proof.
  unfold phi.
  replace ((T_r - T_r) / r) with 0 by (unfold Rdiv; ring).
  rewrite tanh_0. lra.
Qed.

Lemma phi_tends_to_one T_r r :
  0 < r -> tends_to_at_minus_infinity (phi T_r r) 1.
Proof.
  intros Hr eps Heps. exists (T_r - r / eps). intros T HT.
  assert (Hinv : 0 < / eps) by now apply Rinv_0_lt_compat.
  assert (Hx : / eps < (T_r - T) / r).
  { apply (Rmult_lt_reg_r r); [assumption|].
    unfold Rdiv in *. rewrite Rmult_assoc, Rinv_l by lra. lra. }
  destruct (tanh_near_one ((T_r - T) / r)) as [Hlo Hhi]; [lra|].
  assert (Hsmall : / ((T_r - T) / r) < eps).
  { rewrite <- (Rinv_inv eps). apply Rinv_lt_contravar; [|assumption].
    apply Rmult_lt_0_compat; lra. }
  unfold phi. apply Rabs_def1; lra.
Qed.

Lemma phi_tends_to_zero T_r r :
  0 < r -> tends_to_at_plus_infinity (phi T_r r) 0.
Proof.
  intros Hr eps Heps. exists (T_r + r / eps). intros T HT.
  assert (Hinv : 0 < / eps) by now apply Rinv_0_lt_compat.
  assert (Hx : / eps < (T - T_r) / r).
  { apply (Rmult_lt_reg_r r); [assumption|].
    unfold Rdiv in *. rewrite Rmult_assoc, Rinv_l by lra. lra. }
  destruct (tanh_near_one ((T - T_r) / r)) as [Hlo Hhi]; [lra|].
  assert (Hsmall : / ((T - T_r) / r) < eps).
  { rewrite <- (Rinv_inv eps). apply Rinv_lt_contravar; [|assumption].
    apply Rmult_lt_0_compat; lra. }
  unfold phi.
  replace ((T_r - T) / r) with (- ((T - T_r) / r)) by (unfold Rdiv; ring).
  rewrite tanh_opp. apply Rabs_def1; lra.
Qed.

(** C2. When the smoothing parameter is positive, the mapping that
    [update_governing_form] stores in [semi_phasefield_mapping] is
    [0.5 (1 + tanh ((T_r - T) / r))]; it tends to 1 as the temperature tends
    to minus infinity, to 0 as it tends to plus infinity, and is exactly 0.5
    at the regularization central temperature. *)
Theorem phase_indicator_limits (self : Simulation) :
  0 < regularization_smoothing_parameter self ->
  exists m,
    semi_phasefield_mapping (update_governing_form self) = Some m /\
    (forall T, m T = Spec.phi (regularization_central_temperature self)
                       (regularization_smoothing_parameter self) T) /\
    tends_to_at_minus_infinity m 1 /\
    tends_to_at_plus_infinity m 0 /\
    m (regularization_central_temperature self) = 0.5.
Proof.
  intros Hr. eexists. split; [reflexivity|]. unfold Constant.
  repeat split.
  - now apply phi_tends_to_one.
  - now apply phi_tends_to_zero.
  - apply phi_at_center.
Qed.

Lemma phase_indicator_limits_witness :
  0 < regularization_smoothing_parameter (default_Simulation sample_base) /\
  exists m,
    semi_phasefield_mapping
      (update_governing_form (default_Simulation sample_base)) = Some m /\
    (forall T, m T = Spec.phi 0 0.01 T) /\
    tends_to_at_minus_infinity m 1 /\
    tends_to_at_plus_infinity m 0 /\
    m 0 = 0.5.
Proof.
  split; [simpl; lra|].
  apply (phase_indicator_limits (default_Simulation sample_base)).
  simpl. lra.
Defined.

(** ** The viscosity blend *)

(** C3. The blend [mu] used in the form is the liquid viscosity at phase
    indicator 0 and the solid viscosity at 1, and between 0 and 1 it is
    monotonic: non-decreasing when the solid viscosity is at least the liquid
    one, non-increasing when it is at most the liquid one. *)
Theorem viscosity_blend (mu_L mu_S : R) :
  mu mu_L mu_S 0 = mu_L /\
  mu mu_L mu_S 1 = mu_S /\
  (forall x, mu mu_L mu_S x = Spec.mu mu_L mu_S x) /\
  (mu_L <= mu_S ->
   forall x y, 0 <= x -> x <= y -> y <= 1 -> mu mu_L mu_S x <= mu mu_L mu_S y) /\
  (mu_S <= mu_L ->
   forall x y, 0 <= x -> x <= y -> y <= 1 -> mu mu_L mu_S y <= mu mu_L mu_S x).
Proof.
  unfold mu, Spec.mu. repeat split; intros; nra.
Qed.

Lemma viscosity_blend_witness :
  1 <= 1e8 /\ 0 <= 0.25 /\ 0.25 <= 0.75 /\ 0.75 <= 1 /\
  mu 1 1e8 0.25 <= mu 1 1e8 0.75.
Proof.
  assert (H1 : 1 <= 1e8) by lra.
  assert (H2 : 0 <= 0.25) by lra.
  assert (H3 : 0.25 <= 0.75) by lra.
  assert (H4 : 0.75 <= 1) by lra.
  repeat (split; [assumption|]).
  exact (proj1 (proj2 (proj2 (proj2 (viscosity_blend 1 1e8))))
           H1 0.25 0.75 H2 H3 H4).
Defined.

(** ** The mixed element *)

(** C4. After [update_element] the velocity sub-element is a vector element
    of degree [pressure_element_degree + 1], next to a pressure sub-element of
    degree [pressure_element_degree]; in particular this holds right after
    construction, whatever the twelve constructor arguments are. *)
Theorem velocity_degree_is_pressure_degree_plus_one :
  (forall self : Simulation,
     velocity_sub_element_degree (update_element self)
     = Some (pressure_element_degree self + 1)%Z /\
     pressure_sub_element_degree (update_element self)
     = Some (pressure_element_degree self) /\
     exists fam cell k,
       sub_element 1 (update_element self) = Some (VectorElement fam cell k)) /\
  (forall (dt Ra Pr Ste : R) (g : list R) (mu_L mu_S gamma T_r r : R)
          (p t : Z) (env : Base),
     velocity_sub_element_degree
       (update_element (__init__ dt Ra Pr Ste g mu_L mu_S gamma T_r r p t env))
     = Some (p + 1)%Z).
Proof.
  split.
  - intros self. repeat split. now eexists _, _, _.
  - reflexivity.
Qed.

(** C7 fails when the two configured degrees differ: with
    [pressure_element_degree = 1] and [temperature_element_degree = 2] the
    temperature sub-element has degree 2 and the pressure sub-element
    degree 1. *)
Lemma temperature_degree_counterexample :
  let self := __init__ 1 1 1 1 [0; -1] 1 1e8 1e-7 0 0.01 1%Z 2%Z sample_base in
  temperature_sub_element_degree (update_element self) = Some 2%Z /\
  pressure_sub_element_degree (update_element self) = Some 1%Z /\
  (temperature_at_pressure_degree self <-> False).
Proof.
  cbv zeta. split; [reflexivity|]. split; [reflexivity|].
  split; [|contradiction].
  unfold temperature_at_pressure_degree. cbn. discriminate.
Qed.

(** C7, amended. [update_element] builds the pressure sub-element at
    [pressure_element_degree], the velocity sub-element one degree higher and
    the temperature sub-element at [temperature_element_degree]; the
    temperature and pressure degrees agree exactly when the two configured
    degrees are equal. *)
Theorem temperature_degree_is_configured (self : Simulation) :
  pressure_sub_element_degree (update_element self)
  = Some (pressure_element_degree self) /\
  velocity_sub_element_degree (update_element self)
  = Some (pressure_element_degree self + 1)%Z /\
  temperature_sub_element_degree (update_element self)
  = Some (temperature_element_degree self) /\
  (temperature_at_pressure_degree self <->
   temperature_element_degree self = pressure_element_degree self).
Proof.
  repeat split.
  - unfold temperature_at_pressure_degree. cbn. congruence.
  - unfold temperature_at_pressure_degree. cbn. congruence.
Qed.

(** ** Construction *)

(** C8. [__init__] is defined on all argument values, a zero viscosity among
    them, and stores each argument unchanged in the attribute of its name;
    [semi_phasefield_mapping] starts as [None]. *)
Theorem init_stores_every_argument
    (dt Ra Pr Ste : R) (g : list R) (mu_L mu_S gamma T_r r : R)
    (p t : Z) (env : Base) :
  let self := __init__ dt Ra Pr Ste g mu_L mu_S gamma T_r r p t env in
  timestep_size self = dt /\
  rayleigh_numer self = Ra /\
  prandtl_number self = Pr /\
  stefan_number self = Ste /\
  gravity self = g /\
  liquid_viscosity self = mu_L /\
  solid_viscosity self = mu_S /\
  penalty_parameter self = gamma /\
  regularization_central_temperature self = T_r /\
  regularization_smoothing_parameter self = r /\
  pressure_element_degree self = p /\
  temperature_element_degree self = t /\
  semi_phasefield_mapping self = None /\
  liquid_viscosity (__init__ dt Ra Pr Ste g 0 0 gamma T_r r p t env) = 0.
Proof.
  cbn. repeat split.
Qed.

(** ** The parameters are only read *)

Lemma update_element_parameters self :
  parameters (update_element self) = parameters self.
Proof. reflexivity. Qed.

Lemma update_governing_form_parameters self :
  parameters (update_governing_form self) = parameters self.
Proof. reflexivity. Qed.

Lemma invoke_parameters self m :
  parameters (invoke self m) = parameters self.
Proof. destruct m; reflexivity. Qed.

Lemma run_parameters calls : forall self,
  parameters (run calls self) = parameters self.
Proof.
  unfold run. induction calls as [|m calls IH]; intros self; simpl.
  - reflexivity.
  - rewrite IH. apply invoke_parameters.
Qed.

(** C9. The twelve parameter attributes are the same before and after a call
    of [update_element], a call of [update_governing_form], and any sequence
    of calls on the object. *)
Theorem parameters_are_unchanged (self : Simulation) :
  parameters (update_element self) = parameters self /\
  parameters (update_governing_form self) = parameters self /\
  forall calls, parameters (run calls self) = parameters self.
Proof.
  split; [apply update_element_parameters|].
  split; [apply update_governing_form_parameters|].
  intros calls. apply run_parameters.
Qed.

(** ** The stored mapping *)

Lemma run_semi_phasefield_mapping calls : forall self,
  semi_phasefield_mapping (run calls self)
  = if existsb is_update_governing_form calls
    then Some (phi (regularization_central_temperature self)
                 (regularization_smoothing_parameter self))
    else semi_phasefield_mapping self.
Proof.
  unfold run. induction calls as [|m calls IH]; intros self; simpl.
  - reflexivity.
  - rewrite IH.
    pose proof (invoke_parameters self m) as E. unfold parameters in E.
    injection E as _ _ _ _ _ _ _ _ ETr Er _ _. rewrite ETr, Er.
    destruct m; simpl; try reflexivity.
    now destruct (existsb is_update_governing_form calls).
Qed.

(** C10. On an object built by the constructor and then subjected to any
    sequence of calls, [semi_phasefield_mapping] is [None] as long as
    [update_governing_form] is not among the calls, and is the
    hyperbolic-tangent mapping of the object's regularization parameters as
    soon as it is. *)
Theorem mapping_is_None_until_form_assembly
    (dt Ra Pr Ste : R) (g : list R) (mu_L mu_S gamma T_r r : R)
    (p t : Z) (env : Base) (calls : list Call) :
  semi_phasefield_mapping
    (run calls (__init__ dt Ra Pr Ste g mu_L mu_S gamma T_r r p t env))
  = if existsb is_update_governing_form calls
    then Some (Spec.phi T_r r)
    else None.
Proof.
  rewrite run_semi_phasefield_mapping. reflexivity.
Qed.

(** ** Buoyancy *)

(** C6. The buoyancy forcing that [update_governing_form] builds from the
    attributes of the object is [T * Ra / (Pr * Re^2) * g] with [Re = 1] and
    [g] the gravity vector; it is linear in the temperature and vanishes at
    temperature 0. *)
Theorem buoyancy_is_proportional_to_temperature (self : Simulation) :
  let forcing :=
    f_B (Constant (prandtl_number self)) (Constant (rayleigh_numer self))
      (ConstantVector (gravity self)) in
  Re = 1 /\
  (forall T i,
     forcing T i
     = Spec.f_B (rayleigh_numer self) (prandtl_number self) Re
         (fun k => nth k (gravity self) 0) T i) /\
  (forall k T i, forcing (k * T) i = k * forcing T i) /\
  (forall T1 T2 i, forcing (T1 + T2) i = forcing T1 i + forcing T2 i) /\
  (forall i, forcing 0 i = 0).
Proof.
  cbv zeta. unfold f_B, Spec.f_B, vscale, Constant, ConstantVector, Re.
  repeat split; intros; unfold Rdiv; ring.
Qed.

(** ** The Stokes part *)

(** C5. Take the integrand stored by [update_governing_form], remove the terms
    scaled by [1 / Delta_t] and the convection term [c u u psi_u].  On test
    functions whose temperature block vanishes what is left is the
    steady-state Stokes form
    [b u psi_p - gamma psi_p p + b psi_u p + a (mu (phi T)) u psi_u
     + psi_u . f_B T]; on any test function what is left is this Stokes form
    plus the transport term of the energy equation. *)
Theorem stokes_form_remains (self : Simulation) :
  exists F,
    governing_form (update_governing_form self) = Some F /\
    forall (psi : Point -> MixedFunction) (x : Point),
      let w := at_point (solution (state (base self))) x in
      let w_n := at_point (solution (old_state (base self))) x in
      let n := form_dimension self in
      let time_terms v :=
        Spec.time_derivative_terms n (timestep_size self) (stefan_number self)
          (regularization_central_temperature self)
          (regularization_smoothing_parameter self) w w_n v in
      let convection v := c n (velocity w) (velocity w) (velocity v) in
      let stokes :=
        Spec.stokes_form n (prandtl_number self) (rayleigh_numer self) Re
          (ConstantVector (gravity self))
          (regularization_central_temperature self)
          (regularization_smoothing_parameter self)
          (liquid_viscosity self) (solid_viscosity self)
          (penalty_parameter self)
          (pressure w) (velocity w) (temperature w)
          (pressure (psi x)) (velocity (psi x)) in
      integrand F (fun y => mass_momentum_test (psi y)) x
        - time_terms (mass_momentum_test (psi x))
        - convection (mass_momentum_test (psi x))
      = stokes
      /\ integrand F psi x - time_terms (psi x) - convection (psi x)
         = stokes
           + dot n (grad (temperature (psi x)))
               ((1 / prandtl_number self) *: grad (temperature w)
                - temperature w *: velocity w)%ufl.
Proof.
  eexists. split; [reflexivity|].
  intros psi x w w_n n time_terms convection stokes.
  subst time_terms convection stokes. cbn [integrand]. fold w w_n n.
  unfold governing_integrand, mass_momentum_test, Spec.time_derivative_terms,
    Spec.stokes_form.
  cbn [split pressure velocity temperature set_semi_phasefield_mapping base
       liquid_viscosity solid_viscosity penalty_parameter].
  rewrite !dot_vadd_r, !dot_vscale_r.
  change (@grad _ _ grad_scalar zero_scalar) with vzero.
  rewrite ?dot_zero_l.
  change (dot ?k ?v (f_B ?Pr ?Ra ?g ?T))
    with (dot k v (Spec.f_B Ra Pr Re g T)).
  unfold a, D, b, mu, phi, Spec.a, Spec.b, Spec.mu, Spec.phi, Constant.
  cbn [sval zero_scalar].
  subst w w_n n. unfold form_dimension.
  split; unfold Rdiv; ring.
Qed.


(** * Further properties of the closures and of the methods *)

(** ** More on sums *)


Lemma sum_below_nonneg n f :
  (forall i, 0 <= f i) -> 0 <= sum_below n f.
Proof.
  intros H. induction n as [|n IH]; simpl; [lra|].
  specialize (H n). lra.
Qed.

Lemma dot_comm d x y : dot d x y = dot d y x.
Proof.
  apply sum_below_ext. intros i. ring.
Qed.

Lemma dot_vadd_l d x y z : dot d (x + y)%ufl z = dot d x z + dot d y z.
Proof.
  rewrite dot_comm, dot_vadd_r, (dot_comm d z x), (dot_comm d z y).
  reflexivity.
Qed.

Lemma dot_vscale_l d k x y : dot d (k *: x) y = k * dot d x y.
Proof.
  rewrite dot_comm, dot_vscale_r, (dot_comm d y x). reflexivity.
Qed.

Lemma inner_comm d A B : inner d A B = inner d B A.
Proof.
  apply sum_below_ext. intros i. apply sum_below_ext. intros j. ring.
Qed.

Lemma inner_ext d A B B' :
  (forall i j, B i j = B' i j) -> inner d A B = inner d A B'.
Proof.
  intros E. apply sum_below_ext. intros i. apply sum_below_ext. intros j.
  now rewrite E.
Qed.

Lemma inner_tadd_r d A B C :
  inner d A (tadd B C) = inner d A B + inner d A C.
Proof.
  unfold inner, tadd. rewrite <- sum_below_plus.
  apply sum_below_ext. intros i. rewrite <- sum_below_plus.
  apply sum_below_ext. intros j. ring.
Qed.

Lemma inner_tscale_r d k A B :
  inner d A (tscale k B) = k * inner d A B.
Proof.
  unfold inner, tscale. rewrite <- sum_below_scale.
  apply sum_below_ext. intros i. rewrite <- sum_below_scale.
  apply sum_below_ext. intros j. ring.
Qed.


Lemma div_vector_add d u v : div d (vector_add u v) = div d u + div d v.
Proof.
  unfold div. rewrite <- sum_below_plus. reflexivity.
Qed.

Lemma div_vector_scale d k u : div d (vector_scale k u) = k * div d u.
Proof.
  unfold div. rewrite <- sum_below_scale. reflexivity.
Qed.

Lemma D_vector_add d A u v :
  inner d A (D (vector_add u v)) = inner d A (D u) + inner d A (D v).
Proof.
  rewrite <- inner_tadd_r. apply inner_ext. intros i j.
  unfold D, sym, tadd. cbn. unfold tadd. lra.
Qed.

Lemma D_vector_scale d A k u :
  inner d A (D (vector_scale k u)) = k * inner d A (D u).
Proof.
  rewrite <- inner_tscale_r. apply inner_ext. intros i j.
  unfold D, sym, tscale. cbn. unfold tscale. lra.
Qed.

(** ** The form is linear in the test function *)

Lemma governing_integrand_add d Delta_t Pr Ra Ste g T_r r mu_L mu_S gamma
    w w_n v1 v2 :
  governing_integrand d Delta_t Pr Ra Ste g T_r r mu_L mu_S gamma
    w w_n (mixed_add v1 v2)
  = governing_integrand d Delta_t Pr Ra Ste g T_r r mu_L mu_S gamma w w_n v1
    + governing_integrand d Delta_t Pr Ra Ste g T_r r mu_L mu_S gamma w w_n v2.
Proof.
  unfold governing_integrand, mixed_add.
  cbn [split pressure velocity temperature].
  unfold a, b, c. rewrite div_vector_add, D_vector_add.
  change (vval (vector_add ?x ?y)) with (vval x + vval y)%ufl.
  change (@grad _ _ grad_scalar (scalar_add ?x ?y))
    with (@grad _ _ grad_scalar x + @grad _ _ grad_scalar y)%ufl.
  rewrite !dot_vadd_l, !dot_vadd_r. cbn [sval scalar_add]. ring.
Qed.

Lemma governing_integrand_scale d Delta_t Pr Ra Ste g T_r r mu_L mu_S gamma
    w w_n k v :
  governing_integrand d Delta_t Pr Ra Ste g T_r r mu_L mu_S gamma
    w w_n (mixed_scale k v)
  = k * governing_integrand d Delta_t Pr Ra Ste g T_r r mu_L mu_S gamma w w_n v.
Proof.
  unfold governing_integrand, mixed_scale.
  cbn [split pressure velocity temperature].
  unfold a, b, c. rewrite div_vector_scale, D_vector_scale.
  change (vval (vector_scale ?x ?y)) with (x *: vval y).
  change (@grad _ _ grad_scalar (scalar_scale ?x ?y))
    with (x *: @grad _ _ grad_scalar y).
  rewrite !dot_vscale_l, !dot_vscale_r. cbn [sval scalar_scale]. ring.
Qed.

(** X1. The integrand of the form stored by [update_governing_form] is linear
    in the test function: it is additive over sums of test functions and
    homogeneous over multiples, and so vanishes on the zero test function. *)
Theorem governing_form_is_linear_in_test_function (self : Simulation) :
  exists F,
    governing_form (update_governing_form self) = Some F /\
    forall (psi1 psi2 : Point -> MixedFunction) (k : R) (x : Point),
      integrand F (fun y => mixed_add (psi1 y) (psi2 y)) x
      = integrand F psi1 x + integrand F psi2 x
      /\ integrand F (fun y => mixed_scale k (psi1 y)) x
         = k * integrand F psi1 x
      /\ integrand F (fun y => mixed_scale 0 (psi1 y)) x = 0.
Proof.
  eexists. split; [reflexivity|].
  intros psi1 psi2 k x. cbn [integrand].
  rewrite governing_integrand_add, !governing_integrand_scale.
  repeat split. ring.
Qed.

(** ** Steady solutions and the mass equation *)



(** X3. On test functions with only a pressure block the stored integrand is
    the penalised continuity equation [- psi_p (div u + gamma p)]: it involves
    neither the temperature nor the old solution, and vanishes for a
    divergence-free velocity when the penalty parameter is zero. *)
Theorem mass_equation_is_penalised_continuity (self : Simulation) :
  exists F,
    governing_form (update_governing_form self) = Some F /\
    forall (psi : Point -> MixedFunction) (x : Point),
      let w := at_point (solution (state (base self))) x in
      let n := form_dimension self in
      integrand F (fun y => mass_test (psi y)) x
      = - pressure (psi x)
        * (div n (velocity w) + penalty_parameter self * pressure w)
      /\ (penalty_parameter self = 0 -> div n (velocity w) = 0 ->
          integrand F (fun y => mass_test (psi y)) x = 0).
Proof.
  eexists. split; [reflexivity|].
  intros psi x w n. cbn [integrand].
  unfold governing_integrand, mass_test.
  cbn [split pressure velocity temperature set_semi_phasefield_mapping base
       liquid_viscosity solid_viscosity penalty_parameter].
  fold (form_dimension self). fold w n.
  rewrite b_zero_field, a_zero_test, c_zero_test.
  cbn [vval sval zero_vector zero_scalar].
  change (@grad _ _ grad_scalar zero_scalar) with vzero.
  rewrite !dot_zero_l. unfold b, Constant.
  split.
  - ring.
  - intros Hgamma Hdiv. rewrite Hgamma, Hdiv. ring.
Qed.

Lemma mass_equation_is_penalised_continuity_witness :
  exists F,
    governing_form
      (update_governing_form
         (__init__ 1 1 1 1 [0; -1] 1 1e8 0 0 0.01 1 1 sample_base)) = Some F /\
    integrand F (fun y => mass_test (mkMixed (mkScalar 1 vzero)
                                       zero_vector zero_scalar)) vzero = 0.
Proof.
  destruct (mass_equation_is_penalised_continuity
              (__init__ 1 1 1 1 [0; -1] 1 1e8 0 0 0.01 1 1 sample_base))
    as [F [HF H]].
  exists F. split; [exact HF|].
  apply (H (fun _ => mkMixed (mkScalar 1 vzero) zero_vector zero_scalar) vzero).
  - reflexivity.
  - apply div_zero.
Defined.

(** ** Shape of the phase indicator *)

Lemma tanh_alt x : tanh x = 1 - 2 / (exp x * exp x + 1).
Proof.
  rewrite tanh_exp, exp_Ropp.
  pose proof (exp_pos x) as H.
  field. split; nra.
Qed.

Lemma tanh_bounds x : -1 < tanh x < 1.
Proof.
  rewrite tanh_alt. pose proof (exp_pos x) as H.
  assert (Hd : 1 < exp x * exp x + 1) by nra.
  assert (Hq : 0 < 2 / (exp x * exp x + 1) < 2).
  { split.
    - apply Rdiv_lt_0_compat; lra.
    - apply (Rmult_lt_reg_r (exp x * exp x + 1)); [lra|].
      unfold Rdiv. rewrite Rmult_assoc, Rinv_l by lra. lra. }
  lra.
Qed.

Lemma tanh_increasing x y : x < y -> tanh x < tanh y.
Proof.
  intros Hxy. rewrite !tanh_alt.
  pose proof (exp_pos x) as Hx. pose proof (exp_pos y) as Hy.
  pose proof (exp_increasing x y Hxy) as Hexp.
  assert (Hsq : exp x * exp x + 1 < exp y * exp y + 1) by nra.
  assert (Hinv : / (exp y * exp y + 1) < / (exp x * exp x + 1)).
  { apply Rinv_lt_contravar; [nra|assumption]. }
  unfold Rdiv. lra.
Qed.

Lemma phi_range T_r r T : 0 < phi T_r r T < 1.
Proof.
  unfold phi. pose proof (tanh_bounds ((T_r - T) / r)). lra.
Qed.

Lemma phi_decreasing T_r r T1 T2 :
  0 < r -> T1 < T2 -> phi T_r r T2 < phi T_r r T1.
Proof.
  intros Hr HT. unfold phi.
  assert (H : (T_r - T2) / r < (T_r - T1) / r).
  { unfold Rdiv. apply Rmult_lt_compat_r; [now apply Rinv_0_lt_compat|lra]. }
  pose proof (tanh_increasing _ _ H). lra.
Qed.

(** X4. For a non-zero smoothing parameter the phase indicator stays strictly
    between 0 and 1 at every temperature, and the indicator values at two
    temperatures placed symmetrically about the regularization central
    temperature add up to 1. *)
Theorem phase_indicator_range_and_symmetry (T_r r : R) :
  r <> 0 ->
  (forall T, 0 < phi T_r r T < 1) /\
  (forall s, phi T_r r (T_r + s) + phi T_r r (T_r - s) = 1).
Proof.
  intros Hr. split.
  - intros T. apply phi_range.
  - intros s. unfold phi.
    replace ((T_r - (T_r + s)) / r) with (- (s / r)) by (field; assumption).
    replace ((T_r - (T_r - s)) / r) with (s / r) by (field; assumption).
    rewrite tanh_opp. lra.
Qed.

Lemma phase_indicator_range_and_symmetry_witness :
  0.01 <> 0 /\ 0 < phi 0 0.01 1 < 1.
Proof.
  assert (H : 0.01 <> 0) by lra.
  split; [exact H|].
  exact (proj1 (phase_indicator_range_and_symmetry 0 0.01 H) 1).
Defined.

(** X5. For a positive smoothing parameter the phase indicator is strictly
    decreasing in the temperature: a warmer point is never more solid. *)
Theorem phase_indicator_is_decreasing (T_r r T1 T2 : R) :
  0 < r -> T1 < T2 -> phi T_r r T2 < phi T_r r T1.
Proof.
  apply phi_decreasing.
Qed.

Lemma phase_indicator_is_decreasing_witness :
  0 < 0.01 /\ 0 < 1 /\ phi 0 0.01 1 < phi 0 0.01 0.
Proof.
  assert (H1 : 0 < 0.01) by lra.
  assert (H2 : 0 < 1) by lra.
  repeat (split; [assumption|]).
  exact (phase_indicator_is_decreasing 0 0.01 0 1 H1 H2).
Defined.

(** X6. The effective viscosity [mu (phi T)] of the form lies between the
    liquid and the solid viscosity at every temperature when the solid
    viscosity is at least the liquid one, and at the regularization central
    temperature it is their arithmetic mean. *)
Theorem effective_viscosity_is_bounded (mu_L mu_S T_r r : R) :
  r <> 0 -> mu_L <= mu_S ->
  (forall T, mu_L <= mu mu_L mu_S (phi T_r r T) <= mu_S) /\
  mu mu_L mu_S (phi T_r r T_r) = (mu_L + mu_S) / 2.
Proof.
  intros Hr Hmu. split.
  - intros T. unfold mu.
    pose proof (phi_range T_r r T). nra.
  - rewrite phi_at_center. unfold mu. lra.
Qed.

Lemma effective_viscosity_is_bounded_witness :
  0.01 <> 0 /\ 1 <= 1e8 /\ 1 <= mu 1 1e8 (phi 0 0.01 1) <= 1e8.
Proof.
  assert (H1 : 0.01 <> 0) by lra.
  assert (H2 : 1 <= 1e8) by lra.
  repeat (split; [assumption|]).
  exact (proj1 (effective_viscosity_is_bounded 1 1e8 0 0.01 H1 H2) 1).
Defined.

(** X7. With a positive smoothing parameter and a positive Stefan number the
    quantity [T - (1/Ste) phi T], whose backward difference the energy
    equation takes, is strictly increasing in the temperature: the bracket
    [T - T_n - (1/Ste) (phi T - phi T_n)] is positive exactly when the
    temperature has risen. *)
Theorem enthalpy_is_increasing (Ste T_r r T_n T : R) :
  0 < r -> 0 < Ste ->
  (T_n < T -> enthalpy Ste T_r r T_n < enthalpy Ste T_r r T) /\
  (0 < T - T_n - 1 / Ste * (phi T_r r T - phi T_r r T_n) <-> T_n < T).
Proof.
  intros Hr HSte.
  assert (Hinv : 0 < 1 / Ste).
  { unfold Rdiv. rewrite Rmult_1_l. now apply Rinv_0_lt_compat. }
  assert (Hup : forall x y, x < y ->
            0 < y - x - 1 / Ste * (phi T_r r y - phi T_r r x)).
  { intros x y Hxy.
    pose proof (phi_decreasing T_r r x y Hr Hxy). nra. }
  split.
  - intros HT. unfold enthalpy. specialize (Hup _ _ HT). lra.
  - split.
    + intros Hpos. destruct (Rtotal_order T_n T) as [Hlt|[Heq|Hgt]].
      * assumption.
      * subst T. lra.
      * specialize (Hup _ _ Hgt). nra.
    + apply Hup.
Qed.

Lemma enthalpy_is_increasing_witness :
  0 < 0.01 /\ 0 < 1 /\ 0 < 1 /\ enthalpy 1 0 0.01 0 < enthalpy 1 0 0.01 1.
Proof.
  assert (H1 : 0 < 0.01) by lra.
  assert (H2 : 0 < 1) by lra.
  repeat (split; [assumption|]).
  exact (proj1 (enthalpy_is_increasing 1 0 0.01 0 1 H1 H2) H2).
Defined.

(** ** The viscous and the convective term *)



(** X8. The Stokes stress-strain term [a] is symmetric in the two velocity
    fields, is non-negative on the diagonal as soon as the viscosity is
    non-negative, and vanishes together with the strain rate [D u]. *)
Theorem viscous_term_is_symmetric_and_nonnegative
    (d : nat) (m : R) (u v : VectorFunction) :
  a d m u v = a d m v u /\
  (0 <= m -> 0 <= a d m u u) /\
  ((forall i j, D u i j = 0) -> a d m u v = 0).
Proof.
  unfold a. repeat split.
  - now rewrite inner_comm.
  - intros Hm.
    assert (H : 0 <= inner d (D u) (D u)).
    { apply sum_below_nonneg. intros i. apply sum_below_nonneg. intros j.
      nra. }
    nra.
  - intros Hzero.
    assert (H : inner d (D u) (D v) = 0).
    { apply sum_below_zero. intros i. apply sum_below_zero. intros j.
      rewrite Hzero. ring. }
    rewrite H. ring.
Qed.

Lemma viscous_term_is_symmetric_and_nonnegative_witness :
  0 <= 1 /\ 0 <= a 2 1 (mkVector vzero (fun i j => INR i)) 
                        (mkVector vzero (fun i j => INR i)).
Proof.
  assert (H : 0 <= 1) by lra.
  split; [exact H|].
  exact (proj1 (proj2 (viscous_term_is_symmetric_and_nonnegative 2 1
           (mkVector vzero (fun i j => INR i))
           (mkVector vzero (fun i j => INR i)))) H).
Defined.





(** ** How the two methods compose *)

(** X11. [update_element] assigns [element] only and [update_governing_form]
    assigns [semi_phasefield_mapping] and [governing_form] only; hence each
    method gives the same object when called twice in a row as when called
    once, and the two methods can be called in either order. *)
Theorem methods_are_idempotent_and_commute (self : Simulation) :
  update_element (update_element self) = update_element self /\
  update_governing_form (update_governing_form self)
  = update_governing_form self /\
  update_element (update_governing_form self)
  = update_governing_form (update_element self) /\
  semi_phasefield_mapping (update_element self) = semi_phasefield_mapping self /\
  governing_form (update_element self) = governing_form self /\
  element (update_governing_form self) = element self /\
  base (update_element self) = base self /\
  base (update_governing_form self) = base self.
Proof.
  repeat split.
Qed.

(** ** Objects reached from the constructor *)









